(** * RAGTools: the tool facade of the retrieval pipeline

    A shallow embedding of [mcp_server/tools/rag_tools.py].  The class
    [RAGTools] sequences calls against a pipeline object that owns a vector
    table and an embedding client.  The vector table is the only state the
    embedding tracks; every method becomes a computation in a state and
    exception monad over the table's rows.

    Operations of the external collaborators (vector table, embedding
    model, document converter, file system) are taken to succeed unless the
    source catches their failure in a [try] block or a stated property
    speaks about the failure; those failures are part of the model.
    Logging has no effect on the table and is left out. *)

From Stdlib Require Import ZArith Ascii String List Permutation.
From stdpp Require Import gmap strings list fin_maps pretty.

(** ** Python values stored in metadata dictionaries

    Metadata dictionaries are [Dict[str, Any]].  The values the tools
    distinguish are strings (quoted in filter expressions), other scalars
    (formatted as they are) and [None] (dropped by [dropna]). *)

Inductive pyval : Type :=
  | VNone : pyval
  | VInt : Z -> pyval
  | VStr : string -> pyval.

#[global] Instance pyval_eq_dec : EqDecision pyval.
Proof. solve_decision. Defined.

Definition pyval_encode (v : pyval) : unit + (Z + string) :=
  match v with
  | VNone => inl tt
  | VInt z => inr (inl z)
  | VStr s => inr (inr s)
  end.

Definition pyval_decode (x : unit + (Z + string)) : pyval :=
  match x with
  | inl _ => VNone
  | inr (inl z) => VInt z
  | inr (inr s) => VStr s
  end.

#[global] Instance pyval_countable : Countable pyval.
Proof.
  apply (inj_countable' pyval_encode pyval_decode).
  intros []; reflexivity.
Defined.

(** A metadata dictionary; only lookups matter, so it is a finite map. *)
Abbreviation Meta := (gmap string pyval).

(** [m.get(key)]: the value under [key], [None] when the key is absent. *)
Definition dict_get (key : string) (m : Meta) : pyval :=
  default VNone (m !! key).

(** [{**old, **new}]: keys of [new] overwrite, all other keys are kept. *)
Definition dict_merge (old new : Meta) : Meta := new ∪ old.

(** A metadata filter is a dictionary whose items are visited in insertion
    order when the filter expression is built. *)
Abbreviation Filter := (list (string * pyval)).

(** ** The pandas operations used on metadata columns *)

(** [Series.dropna()]: drops the [None] entries. *)
Definition dropna (col : list pyval) : list pyval :=
  List.filter (fun v => bool_decide (v <> VNone)) col.

(** [Series.unique()]: the distinct values in order of first appearance;
    [seen] holds the values already emitted. *)
Fixpoint unique_from (seen col : list pyval) : list pyval :=
  match col with
  | [] => []
  | v :: col' =>
      if bool_decide (v ∈ seen) then unique_from seen col'
      else v :: unique_from (v :: seen) col'
  end.

Definition unique (col : list pyval) : list pyval := unique_from [] col.

(** [Series.value_counts().to_dict()]: each value mapped to its number of
    occurrences. *)
Fixpoint value_counts (col : list pyval) : gmap pyval nat :=
  match col with
  | [] => ∅
  | v :: col' =>
      let counts := value_counts col' in
      <[v := S (default 0 (counts !! v))]> counts
  end.

(** [x or default] on an optional string: [None] and the empty string are
    falsy. *)
Definition str_or (x : option string) (dflt : string) : string :=
  match x with
  | Some EmptyString => dflt
  | Some s => s
  | None => dflt
  end.

(** ** Exceptions *)

Inductive exn : Type :=
  | DeleteError
  | EmbedError
  | DimError
  | ConvertError
  | ChunkError
  | WriteError
  | RetrievalError.

Inductive outcome (A : Type) : Type :=
  | Ok : A -> outcome A
  | Raised : exn -> outcome A.
Arguments Ok {A} _.
Arguments Raised {A} _.

Section Tools.

(** Components of embedding vectors are only stored and copied. *)
Context {scalar : Type}.

(** The Python integer [0] as a vector component. *)
Variable zero : scalar.

(** ** Rows of the vector table *)

Record Row : Type := mkRow {
  text : string;
  vector : list scalar;
  metadata : Meta;
}.

Abbreviation Table := (list Row).

(** ** The state monad of the tools *)

Definition M (A : Type) : Type := Table -> outcome A * Table.

Definition ret {A} (a : A) : M A := fun t => (Ok a, t).

Definition raise {A} (e : exn) : M A := fun t => (Raised e, t).

Definition bind {A B} (c : M A) (k : A -> M B) : M B :=
  fun t =>
    match c t with
    | (Ok a, t') => k a t'
    | (Raised e, t') => (Raised e, t')
    end.

(** [try: c except Exception: h] *)
Definition try_except {A} (c : M A) (h : exn -> M A) : M A :=
  fun t =>
    match c t with
    | (Ok a, t') => (Ok a, t')
    | (Raised e, t') => h e t'
    end.

(** A computation that cannot touch the table. *)
Definition lift {A} (o : outcome A) : M A := fun t => (o, t).

Notation "'let*' x ':=' c 'in' k" := (bind c (fun x => k))
  (at level 10, x name, c at level 100, k at level 200).
Notation "'run' c 'in' k" := (bind c (fun _ => k))
  (at level 10, c at level 100, k at level 200).

(** ** The vector table engine *)

(** Modelled from the spec: the vector table is an external store
    "supporting filtered search/delete/add" with "built-in
    filter-expression support"; the engine itself is not part of the
    sources.  [eval_where] is the engine's evaluation of a filter
    expression on a row, [rank] the order in which a vector search
    returns its hits for a query vector (some permutation of the hits),
    and [delete_raises] tells whether a filtered delete fails, which the
    source anticipates with a [try] block. *)
Record TableEngine : Type := {
  eval_where : string -> Row -> bool;
  rank : list scalar -> list Row -> list Row;
  rank_perm : forall q l, Permutation (rank q l) l;
  delete_raises : string -> Table -> bool;
}.

Variable E : TableEngine.

(** Modelled from the spec: [table.add(entries)] stores each entry as
    one more row. *)
Definition table_add (entries : list Row) : M unit :=
  fun t => (Ok tt, t ++ entries).

(** Modelled from the spec: [table.delete(expr)] removes the rows the
    expression selects; a delete that raises leaves the rows in place. *)
Definition table_delete (expr : string) : M unit :=
  fun t =>
    if delete_raises E expr t then (Raised DeleteError, t)
    else (Ok tt, List.filter (fun r => negb (eval_where E expr r)) t).

(** Modelled from the spec:
    [table.search(q).where(expr).limit(None).to_pandas()] yields every
    row the expression selects, in the order of the vector search. *)
Definition table_search_where (q : list scalar) (expr : string)
  : M (list Row) :=
  fun t => (Ok (rank E q (List.filter (eval_where E expr) t)), t).


(** Modelled from the spec: [table.to_pandas()] yields all rows. *)
Definition table_to_pandas : M (list Row) := fun t => (Ok t, t).

(** Modelled from the spec: [table.count_rows()]. *)
Definition table_count_rows : M nat := fun t => (Ok (length t), t).

(** ** Building the filter expression *)

(** [f"'{v}'" if isinstance(v, str) else v], as formatted into the
    clause. *)
Definition format_value (v : pyval) : string :=
  match v with
  | VStr s => "'" +:+ s +:+ "'"
  | VInt z => pretty z
  | VNone => "None"
  end.

(** [f"metadata.{k} = {val}"] *)
Definition clause (kv : string * pyval) : string :=
  "metadata." +:+ fst kv +:+ " = " +:+ format_value (snd kv).

(** [" AND ".join(clauses)] *)
Definition filter_expr (metadata_filter : Filter) : string :=
  String.concat " AND " (map clause metadata_filter).

(** ** The pipeline object and its surroundings *)

(** Parsed documents produced by the external document converter. *)
Context {Document : Type}.

(** The members of [RAGPipeline] the tools call.  [embed_query] is the
    embedding client ([None]: the call raises), [valid_vector_dim] the
    check made by [_validate_vector_dim] (it raises when the check
    fails), [split_document] the chunker's segmentation of a document
    ([None]: it raises) and [extra_metadata] whatever a chunk carries
    besides project and year.

    For [RAGPipeline.retrieval], which is not part of the sources,
    [where_clause] is the filter expression it builds from a metadata
    filter, [top_k] the number of hits it asks for given [k], and
    [format_hits] the text with citations it makes of the hits. *)
Record Pipeline : Type := {
  vector_dim : nat;
  embed_query : string -> option (list scalar);
  valid_vector_dim : list scalar -> bool;
  where_clause : Filter -> string;
  top_k : option Z -> nat;
  format_hits : list Row -> string;
  split_document : Document -> option (list string);
  extra_metadata : string -> string -> Meta;
}.

(** A file found by [Path(dir).glob("*.pdf")]: [str(pdf)], [pdf.name]
    and [pdf.stem]. *)
Record PdfFile : Type := {
  pdf_path : string;
  pdf_name : string;
  pdf_stem : string;
}.

(** Settings, file system and document converter.  [convert] is
    [DocumentConverter().convert(source=...)] ([None]: it raises),
    [export_to_markdown] the document's Markdown export and [write_text]
    tells whether writing a file under a path succeeds. *)
Record World : Type := {
  knowledge_base_path : string;
  kak_tor_base_path : string;
  kak_tor_md_base_path : string;
  glob_pdf : string -> list PdfFile;
  convert : string -> option Document;
  export_to_markdown : Document -> option string;
  write_text : string -> string -> bool;
}.

Variable P : Pipeline.
Variable W : World.

(** An optional result of an external call, raising [e] when absent. *)
Definition or_raise {A} (e : exn) (o : option A) : M A :=
  match o with
  | Some a => ret a
  | None => raise e
  end.

(** [for x in l: acc = body(x, acc)] *)
Fixpoint for_each {A S} (l : list A) (body : A -> S -> M S) (acc : S)
  : M S :=
  match l with
  | [] => ret acc
  | x :: l' => let* acc' := body x acc in for_each l' body acc'
  end.

(** Modelled from the spec: [RAGPipeline.reset_vectorstore] is not part of
    the sources; it drops the vector table and creates it anew, empty. *)
Definition reset_vectorstore : M unit := fun _ => (Ok tt, []).

(** [self.pipeline._validate_vector_dim(vec)] *)
Definition _validate_vector_dim (vec : list scalar) : M unit :=
  if valid_vector_dim P vec then ret tt else raise DimError.

(** The row a chunk of text becomes. *)
Definition chunk_row (name project tahun seg : string) (vec : list scalar)
  : Row :=
  {| text := seg;
     vector := vec;
     metadata := <["project" := VStr project]>
                   (<["tahun" := VStr tahun]> (extra_metadata P name seg)) |}.

(** The rows for a list of segments; the first segment whose embedding
    fails makes the whole call raise. *)
Fixpoint embed_chunks (name project tahun : string) (segs : list string)
  : outcome (list Row) :=
  match segs with
  | [] => Ok []
  | seg :: segs' =>
      match embed_query P seg with
      | None => Raised EmbedError
      | Some vec =>
          match embed_chunks name project tahun segs' with
          | Ok rows => Ok (chunk_row name project tahun seg vec :: rows)
          | Raised e => Raised e
          end
      end
  end.

(** Modelled from the spec: [RAGPipeline._chunk_document] is not part of
    the sources.  A chunk is "a segment of parsed document text with
    attached project/year metadata, stored as one vector-store row"; the
    metadata keys are the ones the statistics read, ["project"] and
    ["tahun"].  Each segment is embedded with the pipeline's embedding
    client; the table is not touched. *)
Definition _chunk_document (doc : Document) (name project tahun : string)
  : M (list Row) :=
  match split_document P doc with
  | None => raise ChunkError
  | Some segs => lift (embed_chunks name project tahun segs)
  end.

(** ** Ingestion *)

Definition add_product_knowledge (base_dir : option string)
    (project_name tahun : string) : M unit :=
  let base_dir := default (knowledge_base_path W) base_dir in
  let pdf_files := glob_pdf W base_dir in
  if bool_decide (pdf_files = []) then ret tt
  else
    let* entries :=
      for_each pdf_files
        (fun pdf entries =>
           try_except
             (let* result := or_raise ConvertError (convert W (pdf_path pdf)) in
              let* chunks :=
                _chunk_document result (pdf_name pdf) project_name tahun in
              ret (entries ++ chunks))
             (fun _ => ret entries))
        [] in
    if bool_decide (entries = []) then ret tt
    else table_add entries.

(** [md_path.mkdir(parents=True, exist_ok=True)] acts on the file system
    only; it has no counterpart on the table. *)
Definition add_kak_tor_knowledge (base_dir md_dir project tahun : option string)
  : M unit :=
  let base_dir := default (kak_tor_base_path W) base_dir in
  let md_dir := default (kak_tor_md_base_path W) md_dir in
  let pdf_files := glob_pdf W base_dir in
  if bool_decide (pdf_files = []) then ret tt
  else
    let* entries :=
      for_each pdf_files
        (fun pdf entries =>
           try_except
             (let* result := or_raise ConvertError (convert W (pdf_path pdf)) in
              let* md_content :=
                or_raise ConvertError (export_to_markdown W result) in
              let out_md := md_dir +:+ "/" +:+ pdf_stem pdf +:+ ".md" in
              run (if write_text W out_md md_content then ret tt
                   else raise WriteError) in
              let* chunks :=
                _chunk_document result (pdf_name pdf)
                  (str_or project "kak_tor") (str_or tahun "2025") in
              ret (entries ++ chunks))
             (fun _ => ret entries))
        [] in
    if bool_decide (entries = []) then ret tt
    else table_add entries.

(** ** Retrieval and reset *)



Definition reset_knowledge_base : M unit := reset_vectorstore.

(** ** Metadata rewrite *)

(** The entry built for a matched row. *)
Definition updated_entry (new_metadata : Meta) (row : Row) : Row :=
  {| text := text row;
     vector := vector row;
     metadata := dict_merge (metadata row) new_metadata |}.

Definition update_chunk_metadata (metadata_filter : Filter)
    (new_metadata : Meta) : M nat :=
  let filter_expr := filter_expr metadata_filter in
  let* df :=
    table_search_where (repeat zero (vector_dim P)) filter_expr in
  if bool_decide (df = []) then ret 0
  else
    run try_except (table_delete filter_expr) (fun _ => ret tt) in
    let updated_entries := map (updated_entry new_metadata) df in
    run table_add updated_entries in
    ret (length updated_entries).

(** ** Statistics *)

(** The dictionary returned by [get_vectorstore_stats]; [size_mb], a
    floating-point figure read from the file system, is left out. *)
Record Stats : Type := {
  total_rows : nat;
  projects : list pyval;
  tahun_distribution : gmap pyval nat;
}.

Definition get_vectorstore_stats : M Stats :=
  let* total := table_count_rows in
  let* df := table_to_pandas in
  let projects :=
    unique (dropna (map (fun r => dict_get "project" (metadata r)) df)) in
  let tahun_dist :=
    value_counts (dropna (map (fun r => dict_get "tahun" (metadata r)) df)) in
  ret {| total_rows := total;
         projects := projects;
         tahun_distribution := tahun_dist |}.

(** ** Re-embedding *)

(** The entry built for a row once its text is embedded. *)
Definition reembedded (row : Row) (vec : list scalar) : Row :=
  {| text := text row; vector := vec; metadata := metadata row |}.

Definition rebuild_all_embeddings (batch_size : Z) : M unit :=
  let* df := table_to_pandas in
  let* entries :=
    for_each df
      (fun row entries =>
         let* vec := or_raise EmbedError (embed_query P (text row)) in
         run _validate_vector_dim vec in
         ret (entries ++ [reembedded row vec]))
      [] in
  run reset_vectorstore in
  table_add entries.

(** ** Vocabulary of the stated properties *)

(** The rows a document yields when chunked, none when chunking raises. *)
Definition chunks_of (doc : Document) (name project tahun : string)
  : list Row :=
  match fst (_chunk_document doc name project tahun []) with
  | Ok rows => rows
  | Raised _ => []
  end.

(** The chunks one PDF contributes to [add_product_knowledge]. *)
Definition product_chunks (project_name tahun : string) (pdf : PdfFile)
  : list Row :=
  match convert W (pdf_path pdf) with
  | Some doc => chunks_of doc (pdf_name pdf) project_name tahun
  | None => []
  end.

(** The chunks one PDF contributes to [add_kak_tor_knowledge]. *)
Definition kak_tor_chunks (md_dir : string) (project tahun : option string)
    (pdf : PdfFile) : list Row :=
  match convert W (pdf_path pdf) with
  | Some doc =>
      match export_to_markdown W doc with
      | Some md_content =>
          if write_text W (md_dir +:+ "/" +:+ pdf_stem pdf +:+ ".md") md_content
          then chunks_of doc (pdf_name pdf)
                 (str_or project "kak_tor") (str_or tahun "2025")
          else []
      | None => []
      end
  | None => []
  end.

(** A row's metadata holds the given project and year. *)
Definition carries (project tahun : string) (r : Row) : Prop :=
  metadata r !! "project" = Some (VStr project)
  /\ metadata r !! "tahun" = Some (VStr tahun).

(** [after] is [before] with [n] more rows, all carrying the given project
    and year. *)
Definition ingested (n : nat) (project tahun : string)
    (before after : Table) : Prop :=
  exists added,
    after = before ++ added
    /\ length added = n
    /\ Forall (carries project tahun) added.

(** [new] is [old] with [new_metadata] merged into its metadata and
    nothing else changed. *)
Definition merged_into (new_metadata : Meta) (old new : Row) : Prop :=
  text new = text old
  /\ vector new = vector old
  /\ forall key,
       metadata new !! key =
         match new_metadata !! key with
         | Some v => Some v
         | None => metadata old !! key
         end.

(** [after] holds the rows of [before] the expression does not select,
    untouched, and for each selected row one row with the new metadata
    merged in. *)
Definition rewrites_only_metadata (expr : string) (new_metadata : Meta)
    (before after : Table) : Prop :=
  exists rewritten,
    Forall2 (merged_into new_metadata)
      (List.filter (eval_where E expr) before) rewritten
    /\ Permutation after
         (List.filter (fun r => negb (eval_where E expr r)) before
            ++ rewritten).

(** The dictionary reading of a filter: the row's metadata holds every
    item of the filter. *)
Definition row_matches (metadata_filter : Filter) (r : Row) : bool :=
  forallb
    (fun kv => bool_decide (metadata r !! fst kv = Some (snd kv)))
    metadata_filter.


(** Embedding the row's text succeeds with a vector of valid dimension. *)
Definition embeddable (r : Row) : Prop :=
  exists vec,
    embed_query P (text r) = Some vec /\ valid_vector_dim P vec = true.

(** Embedding the row's text raises, or yields a vector that fails the
    dimension check. *)
Definition embedding_fails (r : Row) : Prop :=
  embed_query P (text r) = None
  \/ exists vec,
       embed_query P (text r) = Some vec /\ valid_vector_dim P vec = false.

(** [new] is [old] with its vector replaced by the embedding of its
    text. *)
Definition reembedding (old new : Row) : Prop :=
  text new = text old
  /\ metadata new = metadata old
  /\ embed_query P (text old) = Some (vector new).

End Tools.

(** The number of occurrences of [v] in a column. *)
Definition count_of (v : pyval) (col : list pyval) : nat :=
  length (List.filter (fun x => bool_decide (x = v)) col).

(** ** A small concrete instance

    An engine that understands the expressions of a fixed catalogue of
    filters, a pipeline whose embedding fails on the empty text, and a
    file system with three directories. *)

Definition known_filters : list Filter :=
  [ [("project", VStr "Alpha")];
    [("project", VStr "Alpha"); ("tahun", VStr "2024")];
    [("tahun", VInt 2024)] ].

Definition demo_where (expr : string) (r : @Row Z) : bool :=
  match List.find (fun mf => String.eqb (filter_expr mf) expr) known_filters with
  | Some mf => row_matches mf r
  | None => false
  end.

Definition demo_engine (fails : bool) : @TableEngine Z :=
  {| eval_where := demo_where;
     rank := fun _ l => l;
     rank_perm := fun _ l => Permutation_refl l;
     delete_raises := fun _ _ => fails |}.

Definition demo_embed (s : string) : option (list Z) :=
  if String.eqb s "" then None
  else if String.eqb s "wide" then Some [1; 2; 3]%Z
  else Some [Z.of_nat (String.length s); 1%Z].

Definition demo_pipeline : @Pipeline Z (list string) :=
  {| vector_dim := 2;
     embed_query := demo_embed;
     valid_vector_dim := fun v => Nat.eqb (length v) 2;
     where_clause := filter_expr;
     top_k := fun k => match k with Some n => Z.to_nat n | None => 5 end;
     format_hits := fun hits => String.concat "; " (map text hits);
     split_document := fun doc => Some doc;
     extra_metadata := fun name _ => {["source" := VStr name]} |}.

Definition demo_pdf (dir stem : string) : PdfFile :=
  {| pdf_path := dir +:+ "/" +:+ stem +:+ ".pdf";
     pdf_name := stem +:+ ".pdf";
     pdf_stem := stem |}.

Definition demo_world : @World (list string) :=
  {| knowledge_base_path := "kb";
     kak_tor_base_path := "kak";
     kak_tor_md_base_path := "kak_md";
     glob_pdf := fun dir =>
       if String.eqb dir "kb" then [demo_pdf "kb" "a"; demo_pdf "kb" "b"]
       else if String.eqb dir "kak" then [demo_pdf "kak" "c"]
       else if String.eqb dir "broken" then [demo_pdf "broken" "x"]
       else [];
     convert := fun path =>
       if String.eqb path "kb/a.pdf" then Some ["alpha"; "beta"]
       else if String.eqb path "kb/b.pdf" then Some ["gamma"]
       else if String.eqb path "kak/c.pdf" then Some ["delta"]
       else None;
     export_to_markdown := fun doc => Some (String.concat " " doc);
     write_text := fun _ _ => true |}.

Definition demo_row (txt project tahun : string) : @Row Z :=
  {| text := txt;
     vector := [1; 0]%Z;
     metadata := {["project" := VStr project; "tahun" := VStr tahun]} |}.

Definition demo_table : list (@Row Z) :=
  [ demo_row "alpha" "Alpha" "2023";
    demo_row "beta" "Beta" "2024";
    demo_row "gamma" "Alpha" "2024" ].

(** * The remaining tools

    The methods of [RAGTools] that read Markdown and template files:
    [add_kak_tor_summaries_knowledge], [build_instruction_context],
    [build_summary_tender_payload], and [list_metadata_values]. *)

(** The newline character of the f-strings. *)
Definition nl : string := String (Ascii.ascii_of_nat 10) EmptyString.

(** [needle in hay] on strings. *)
Fixpoint contains (needle hay : string) : bool :=
  String.prefix needle hay
  || match hay with
     | EmptyString => false
     | String _ hay' => contains needle hay'
     end.

(** [s.replace(' ', '_')] *)
Fixpoint replace_spaces (s : string) : string :=
  match s with
  | EmptyString => EmptyString
  | String c s' =>
      String (if Ascii.eqb c " "%char then "_"%char else c) (replace_spaces s')
  end.

(** [f"---\n# {name}\n{text}\n"] *)
Definition context_section (name body : string) : string :=
  "---" +:+ nl +:+ "# " +:+ name +:+ nl +:+ body +:+ nl.

(** The exceptions raised by the file-reading tools: the two
    [FileNotFoundError]s and the [ValueError] of
    [build_summary_tender_payload], the last two with the list of available
    file names their message shows, and a failing [read_text]. *)
Inductive file_exn : Type :=
  | TemplateNotFound (tmpl_path : string)
  | NameRequired (available : list string)
  | KakTorNotFound (kak_tor_name : string) (available : list string)
  | ReadFailed (path : string).

(** What the tools use of paths, files and Python's string methods.
    Paths are the strings [str(p)]; [path_join base child] is
    [Path(base) / child], [glob_md] is [list(Path(dir).glob("*.md"))],
    [read_text] yields [None] when reading raises, [str_strip] and
    [str_lower] are [str.strip()] and [str.lower()]. *)
Record Runtime : Type := {
  summaries_md_base_path : string;
  templates_base_path : string;
  path_join : string -> string -> string;
  path_name : string -> string;
  path_stem : string -> string;
  glob_md : string -> list string;
  path_exists : string -> bool;
  is_file : string -> bool;
  read_text : string -> option string;
  str_strip : string -> string;
  str_lower : string -> string;
}.

(** The dictionary returned by [build_summary_tender_payload]. *)
Record Payload : Type := {
  instruction : string;
  context : string;
}.

Section MoreTools.

Context {scalar Document : Type}.
Variable P : @Pipeline scalar Document.
Variable W : @World Document.
Variable R : Runtime.

Notation "'let*' x ':=' c 'in' k" := (bind c (fun x => k))
  (at level 10, x name, c at level 100, k at level 200).

(** The files tried for a name, in order: the exact name, the lowered name
    with underscores for spaces, then every Markdown file whose stem
    contains the name, case-insensitively. *)
Definition candidates (base name_stem : string) : list string :=
  [ path_join R base (name_stem +:+ ".md");
    path_join R base (replace_spaces (str_lower R name_stem) +:+ ".md") ]
  ++ List.filter
       (fun p => contains (str_lower R name_stem) (str_lower R (path_stem R p)))
       (glob_md R base).

Definition add_kak_tor_summaries_knowledge (markdown_name : option string)
    (project tahun : string) : @M scalar unit :=
  let base := summaries_md_base_path R in
  match markdown_name with
  | None | Some EmptyString => ret tt
  | Some markdown_name =>
      let name_stem := str_strip R markdown_name in
      match List.find (path_exists R) (candidates base name_stem) with
      | None => ret tt
      | Some file_path =>
          try_except
            (let* result := or_raise ConvertError (convert W file_path) in
             let* chunks :=
               _chunk_document P result (path_name R file_path) project tahun in
             if bool_decide (chunks = []) then ret tt
             else table_add chunks)
            (fun _ => ret tt)
      end
  end.

(** [for md in files: contexts.append(section of md)]; the first file
    that cannot be read makes the call raise. *)
Fixpoint read_contexts (files : list string)
  : file_exn + list string :=
  match files with
  | [] => inr []
  | md :: files' =>
      match read_text R md with
      | None => inl (ReadFailed md)
      | Some body =>
          match read_contexts files' with
          | inr contexts => inr (context_section (path_name R md) body :: contexts)
          | inl e => inl e
          end
      end
  end.

Definition build_instruction_context (template_name : string)
    (kak_md_dir : option string) (selected_files : option (list string))
  : file_exn + (string * string) :=
  let tmpl_path :=
    path_join R (templates_base_path R) (template_name +:+ ".txt") in
  match read_text R tmpl_path with
  | None => inl (ReadFailed tmpl_path)
  | Some template =>
      let kak_md_dir := default (kak_tor_md_base_path W) kak_md_dir in
      let files :=
        match selected_files with
        | Some (f :: fs) => map (path_join R kak_md_dir) (f :: fs)
        | _ => glob_md R kak_md_dir
        end in
      match read_contexts files with
      | inl e => inl e
      | inr contexts => inr (template, String.concat nl contexts)
      end
  end.

Definition build_summary_tender_payload (prompt_instruction_name : string)
    (kak_tor_name : option string) : file_exn + Payload :=
  let tmpl_path :=
    path_join R (templates_base_path R) (prompt_instruction_name +:+ ".txt") in
  if negb (is_file R tmpl_path) then inl (TemplateNotFound tmpl_path)
  else
    match read_text R tmpl_path with
    | None => inl (ReadFailed tmpl_path)
    | Some instruction =>
        let md_base := kak_tor_md_base_path W in
        match kak_tor_name with
        | None => inl (NameRequired (map (path_name R) (glob_md R md_base)))
        | Some kak_tor_name =>
            let md_path := path_join R md_base kak_tor_name in
            if negb (is_file R md_path)
            then inl (KakTorNotFound kak_tor_name
                        (map (path_name R) (glob_md R md_base)))
            else
              match read_text R md_path with
              | None => inl (ReadFailed md_path)
              | Some md_text =>
                  inr {| instruction := instruction;
                         context :=
                           context_section (path_name R md_path) md_text |}
              end
        end
    end.

Definition list_metadata_values (field : string) : @M scalar (list pyval) :=
  let* df := table_to_pandas in
  ret (unique (dropna (map (fun r => dict_get field (metadata r)) df))).

End MoreTools.

(** A runtime with two summaries, one template and one exported KAK/TOR
    file; [strip] and [lower] are the identity on the names used. *)
Definition demo_runtime : Runtime :=
  {| summaries_md_base_path := "sum";
     templates_base_path := "tmpl";
     path_join := fun base child => base +:+ "/" +:+ child;
     path_name := fun p =>
       if String.eqb p "sum/tender_a.md" then "tender_a.md"
       else if String.eqb p "sum/tender_b.md" then "tender_b.md"
       else if String.eqb p "kak_md/c.md" then "c.md"
       else p;
     path_stem := fun p =>
       if String.eqb p "sum/tender_a.md" then "tender_a"
       else if String.eqb p "sum/tender_b.md" then "tender_b"
       else if String.eqb p "kak_md/c.md" then "c"
       else p;
     glob_md := fun dir =>
       if String.eqb dir "sum" then ["sum/tender_a.md"; "sum/tender_b.md"]
       else if String.eqb dir "kak_md" then ["kak_md/c.md"]
       else [];
     path_exists := fun p =>
       String.eqb p "sum/tender_a.md" || String.eqb p "sum/tender_b.md"
       || String.eqb p "kak_md/c.md" || String.eqb p "tmpl/summary.txt";
     is_file := fun p =>
       String.eqb p "sum/tender_a.md" || String.eqb p "sum/tender_b.md"
       || String.eqb p "kak_md/c.md" || String.eqb p "tmpl/summary.txt";
     read_text := fun p =>
       if String.eqb p "tmpl/summary.txt" then Some "Summarise the tender."
       else if String.eqb p "kak_md/c.md" then Some "delta"
       else None;
     str_strip := fun s => if String.eqb s "  " then "" else s;
     str_lower := fun s => s |}.

(** A world in which the summaries convert as well. *)
Definition demo_summaries_world : @World (list string) :=
  {| knowledge_base_path := "kb";
     kak_tor_base_path := "kak";
     kak_tor_md_base_path := "kak_md";
     glob_pdf := fun _ => [];
     convert := fun path =>
       if String.eqb path "sum/tender_a.md" then Some ["scope"; "budget"]
       else if String.eqb path "sum/tender_b.md" then Some ["terms"]
       else None;
     export_to_markdown := fun doc => Some (String.concat " " doc);
     write_text := fun _ _ => true |}.

(** A world whose file system refuses every write. *)
Definition demo_readonly_world : @World (list string) :=
  {| knowledge_base_path := "kb";
     kak_tor_base_path := "kak";
     kak_tor_md_base_path := "kak_md";
     glob_pdf := glob_pdf demo_world;
     convert := convert demo_world;
     export_to_markdown := export_to_markdown demo_world;
     write_text := fun _ _ => false |}.

(** * Properties *)

Section Properties.

Context {scalar Document : Type}.
Variable zero : scalar.
Variable E : @TableEngine scalar.
Variable P : @Pipeline scalar Document.
Variable W : @World Document.

Implicit Types (tbl : list (@Row scalar)) (r : @Row scalar).
Implicit Types (mf : Filter) (nm : Meta).

(** ** Lists *)

Lemma filter_none_negb {A} (f : A -> bool) (l : list A) :
  List.filter f l = [] -> List.filter (fun x => negb (f x)) l = l.
Proof.
  induction l as [|x l IH]; simpl; [reflexivity|].
  destruct (f x); simpl; [discriminate|].
  intros H. f_equal. exact (IH H).
Qed.

Lemma perm_nil_iff {A} (l l' : list A) :
  Permutation l l' -> l = [] <-> l' = [].
Proof.
  intros HP. split; intros ->.
  - apply Permutation_nil. exact HP.
  - apply Permutation_nil. symmetry. exact HP.
Qed.

(** ** The filter expression *)

Example filter_expr_two_items :
  filter_expr [("project", VStr "Alpha"); ("tahun", VInt 2024)] =
  "metadata.project = 'Alpha' AND metadata.tahun = 2024".
Proof. reflexivity. Qed.

Example filter_expr_empty : filter_expr [] = "".
Proof. reflexivity. Qed.

(** ** The loop combinator *)

Lemma for_each_cons {A S} (x : A) (l : list A)
    (body : A -> S -> @M scalar S) (acc : S) tbl :
  for_each (x :: l) body acc tbl =
    match body x acc tbl with
    | (Ok acc', tbl') => for_each l body acc' tbl'
    | (Raised e, tbl') => (Raised e, tbl')
    end.
Proof. reflexivity. Qed.

(** ** Metadata rewrite *)

Lemma updated_entry_merged nm r : merged_into nm r (updated_entry nm r).
Proof.
  repeat split. intros key. unfold updated_entry, dict_merge. simpl.
  destruct (nm !! key) as [v|] eqn:Hk.
  - apply lookup_union_Some_l. exact Hk.
  - rewrite lookup_union_r; [reflexivity | exact Hk].
Qed.

Lemma updated_entries_merged nm (rows : list (@Row scalar)) :
  Forall2 (merged_into nm) rows (map (updated_entry nm) rows).
Proof.
  induction rows as [|r rows IH]; simpl; constructor.
  - apply updated_entry_merged.
  - exact IH.
Qed.

(** What one run of [update_chunk_metadata] does: the result is the number
    of hits; without hits the table stays, otherwise the rewritten hits
    are appended to what the delete left. *)
Lemma update_chunk_metadata_run mf nm tbl :
  let expr := filter_expr mf in
  let df := rank E (repeat zero (vector_dim P))
              (List.filter (eval_where E expr) tbl) in
  update_chunk_metadata zero E P mf nm tbl =
    (Ok (length df),
     if bool_decide (df = []) then tbl
     else (if delete_raises E expr tbl then tbl
           else List.filter (fun r => negb (eval_where E expr r)) tbl)
          ++ map (updated_entry nm) df).
Proof.
  intros expr df.
  unfold update_chunk_metadata, bind, table_search_where. simpl.
  fold expr. fold df.
  destruct (bool_decide (df = [])) eqn:Hdf.
  - apply bool_decide_eq_true in Hdf. rewrite Hdf. reflexivity.
  - unfold try_except, table_delete, table_add, ret.
    destruct (delete_raises E expr tbl); simpl; rewrite length_map; reflexivity.
Qed.

Lemma hits_length mf tbl :
  length (rank E (repeat zero (vector_dim P))
            (List.filter (eval_where E (filter_expr mf)) tbl)) =
  length (List.filter (eval_where E (filter_expr mf)) tbl).
Proof. apply Permutation_length, rank_perm. Qed.


(** With an engine that evaluates the built expression as the dictionary
    reading of the filter on the rows at hand, the result counts the rows
    whose metadata holds every item of the filter. *)
Lemma dict_reading_count mf nm tbl :
  (forall r, In r tbl ->
     eval_where E (filter_expr mf) r = row_matches mf r) ->
  fst (update_chunk_metadata zero E P mf nm tbl) =
    Ok (length (List.filter (row_matches mf) tbl)).
Proof.
  intros Hagree. rewrite update_chunk_metadata_run. simpl.
  rewrite hits_length. do 2 f_equal.
  apply List.filter_ext_in. exact Hagree.
Qed.

(** C2, amended: when deleting the old rows does not raise, the metadata
    rewrite changes metadata only: every row the filter selects is
    replaced by a row with the same text and vector whose metadata is the
    old metadata with [new_metadata] merged in, and the rows the filter
    does not select stay as they are. *)
Theorem update_chunk_metadata_frame mf nm tbl :
  delete_raises E (filter_expr mf) tbl = false ->
  rewrites_only_metadata E (filter_expr mf) nm tbl
    (snd (update_chunk_metadata zero E P mf nm tbl)).
Proof.
  intros Hdel. rewrite update_chunk_metadata_run. simpl. rewrite Hdel.
  set (expr := filter_expr mf).
  set (matched := List.filter (eval_where E expr) tbl).
  set (df := rank E _ matched).
  exists (map (updated_entry nm) matched). split.
  - apply updated_entries_merged.
  - destruct (bool_decide (df = [])) eqn:Hdf.
    + apply bool_decide_eq_true in Hdf.
      assert (Hm : matched = []).
      { apply (perm_nil_iff df matched); [apply rank_perm | exact Hdf]. }
      rewrite Hm. simpl. rewrite app_nil_r.
      rewrite filter_none_negb; [reflexivity | exact Hm].
    + apply Permutation_app_head, Permutation_map, rank_perm.
Qed.

(** C8: when the filter selects at least one row and deleting the old rows
    raises, [update_chunk_metadata] still appends the rewritten copies to
    the untouched table, so every selected row is then present both in its
    old and in its rewritten form, and the result still is the number of
    selected rows. *)
Theorem update_chunk_metadata_delete_failure mf nm tbl :
  let matched := List.filter (eval_where E (filter_expr mf)) tbl in
  matched <> [] ->
  delete_raises E (filter_expr mf) tbl = true ->
  exists df,
    Permutation df matched
    /\ update_chunk_metadata zero E P mf nm tbl =
         (Ok (length matched), tbl ++ map (updated_entry nm) df)
    /\ forall r, In r matched ->
         In r tbl
         /\ In (updated_entry nm r) (map (updated_entry nm) df)
         /\ merged_into nm r (updated_entry nm r).
Proof.
  intros matched Hne Hdel.
  exists (rank E (repeat zero (vector_dim P)) matched).
  assert (HP : Permutation (rank E (repeat zero (vector_dim P)) matched) matched)
    by apply rank_perm.
  split; [exact HP|]. split.
  - rewrite update_chunk_metadata_run. simpl. fold matched.
    rewrite Hdel.
    destruct (bool_decide _) eqn:Hdf.
    + apply bool_decide_eq_true in Hdf. exfalso. apply Hne.
      apply (perm_nil_iff _ matched HP). exact Hdf.
    + rewrite (Permutation_length HP). reflexivity.
  - intros r Hr. split; [|split].
    + unfold matched in Hr. apply filter_In in Hr. tauto.
    + apply in_map. apply (Permutation_in r (Permutation_sym HP)). exact Hr.
    + apply updated_entry_merged.
Qed.

(** ** Re-embedding *)

(** The loop of [rebuild_all_embeddings] on rows that can all be embedded:
    it extends the entries by one re-embedded row per row and leaves the
    table alone. *)
Lemma rebuild_loop_ok rows : forall acc tbl,
  Forall (embeddable P) rows ->
  exists new,
    for_each rows
      (fun row entries =>
         bind (or_raise EmbedError (embed_query P (text row)))
           (fun vec =>
              bind (_validate_vector_dim P vec)
                (fun _ => ret (entries ++ [reembedded row vec]))))
      acc tbl = (Ok (acc ++ new), tbl)
    /\ Forall2 (reembedding P) rows new.
Proof.
  induction rows as [|r rows IH]; intros acc tbl Hall.
  - exists []. rewrite app_nil_r. split; [reflexivity | constructor].
  - inversion Hall as [|? ? [vec [Hemb Hdim]] Hrest]; subst.
    destruct (IH (acc ++ [reembedded r vec]) tbl Hrest) as [new [Hrun Hnew]].
    exists (reembedded r vec :: new). split.
    + rewrite for_each_cons.
      unfold bind, or_raise, _validate_vector_dim, ret, raise in *.
      rewrite Hemb, Hdim, Hrun, <- app_assoc. reflexivity.
    + constructor; [|exact Hnew]. repeat split. exact Hemb.
Qed.

(** The same loop when some row cannot be embedded: the exception leaves
    the loop with the table as it was. *)
Lemma rebuild_loop_fail rows : forall acc tbl,
  Exists (embedding_fails P) rows ->
  exists e,
    for_each rows
      (fun row entries =>
         bind (or_raise EmbedError (embed_query P (text row)))
           (fun vec =>
              bind (_validate_vector_dim P vec)
                (fun _ => ret (entries ++ [reembedded row vec]))))
      acc tbl = (Raised e, tbl).
Proof.
  induction rows as [|r rows IH]; intros acc tbl Hex.
  - inversion Hex.
  - rewrite for_each_cons.
    unfold bind, or_raise, _validate_vector_dim, ret, raise in *.
    destruct (embed_query P (text r)) as [vec|] eqn:Hemb.
    + destruct (valid_vector_dim P vec) eqn:Hdim.
      * apply IH. inversion Hex as [? ? Hbad|]; subst; [|assumption].
        destruct Hbad as [Hnone | [vec' [Hsome Hbad]]]; congruence.
      * exists DimError. reflexivity.
    + exists EmbedError. reflexivity.
Qed.

(** C3: when every text can be embedded, [rebuild_all_embeddings] leaves
    a table with exactly one row per former row, in the same order, each
    with the same text and metadata and with the embedding of its text as
    vector; the number of rows is unchanged. *)
Theorem rebuild_all_embeddings_reembeds batch_size tbl :
  Forall (embeddable P) tbl ->
  exists tbl',
    rebuild_all_embeddings P batch_size tbl = (Ok tt, tbl')
    /\ Forall2 (reembedding P) tbl tbl'
    /\ length tbl' = length tbl.
Proof.
  intros Hall.
  destruct (rebuild_loop_ok tbl [] tbl Hall) as [new [Hrun Hnew]].
  exists new. split; [|split].
  - unfold rebuild_all_embeddings, table_to_pandas.
    unfold bind at 1. unfold bind at 1. rewrite Hrun. reflexivity.
  - exact Hnew.
  - symmetry. exact (Forall2_length _ _ _ Hnew).
Qed.

(** C9: when embedding some row's text raises or its vector fails the
    dimension check, [rebuild_all_embeddings] raises before the store is
    reset and the vector table is exactly as before the call. *)
Theorem rebuild_all_embeddings_atomic batch_size tbl :
  Exists (embedding_fails P) tbl ->
  exists e, rebuild_all_embeddings P batch_size tbl = (Raised e, tbl).
Proof.
  intros Hex.
  destruct (rebuild_loop_fail tbl [] tbl Hex) as [e Hrun].
  exists e. unfold rebuild_all_embeddings, table_to_pandas.
  unfold bind at 1. unfold bind at 1. rewrite Hrun. reflexivity.
Qed.

(** C10: the outcome and the final table of [rebuild_all_embeddings] do
    not depend on [batch_size]: two runs from the same table with any two
    positive batch sizes agree. *)
Theorem rebuild_all_embeddings_batch_size (b1 b2 : Z) tbl :
  (0 < b1)%Z -> (0 < b2)%Z ->
  rebuild_all_embeddings P b1 tbl = rebuild_all_embeddings P b2 tbl.
Proof. intros _ _. reflexivity. Qed.

(** ** Retrieval *)


(** ** Statistics *)

Lemma unique_from_elem col : forall seen v,
  v ∈ unique_from seen col <-> v ∈ col /\ v ∉ seen.
Proof.
  induction col as [|a col IH]; intros seen v; simpl.
  - split.
    + intros Hv. apply elem_of_nil in Hv. destruct Hv.
    + intros [Hv _]. exact Hv.
  - destruct (bool_decide (a ∈ seen)) eqn:Ha.
    + apply bool_decide_eq_true in Ha. rewrite IH, elem_of_cons. split.
      * intros [Hcol Hseen]. split; [right; exact Hcol | exact Hseen].
      * intros [[->|Hcol] Hseen]; [contradiction | split; assumption].
    + apply bool_decide_eq_false in Ha.
      rewrite !elem_of_cons, IH, not_elem_of_cons. split.
      * intros [->|[Hcol [Hne Hseen]]].
        -- split; [left; reflexivity | exact Ha].
        -- split; [right; exact Hcol | exact Hseen].
      * intros [[->|Hcol] Hseen]; [left; reflexivity|].
        destruct (decide (v = a)) as [->|Hne]; [left; reflexivity|].
        right. repeat split; assumption.
Qed.



Lemma value_counts_lookup col v :
  value_counts col !! v =
    if Nat.eqb (count_of v col) 0 then None else Some (count_of v col).
Proof.
  unfold count_of.
  induction col as [|a col IH]; simpl; [apply lookup_empty|].
  destruct (decide (a = v)) as [->|Hne].
  - rewrite lookup_insert_eq, IH, bool_decide_eq_true_2 by reflexivity.
    simpl. destruct (Nat.eqb _ 0) eqn:Hz; [|reflexivity].
    apply Nat.eqb_eq in Hz. rewrite Hz. reflexivity.
  - rewrite lookup_insert_ne, IH, bool_decide_eq_false_2 by assumption.
    reflexivity.
Qed.





(** ** Ingestion *)

Lemma chunk_row_carries name project tahun seg vec :
  carries project tahun (chunk_row P name project tahun seg vec).
Proof.
  split; unfold chunk_row; simpl.
  - apply lookup_insert_eq.
  - rewrite lookup_insert_ne by discriminate. apply lookup_insert_eq.
Qed.

Lemma embed_chunks_carries name project tahun segs : forall rows,
  embed_chunks P name project tahun segs = Ok rows ->
  Forall (carries project tahun) rows.
Proof.
  induction segs as [|seg segs IH]; simpl; intros rows Hrun.
  - injection Hrun as <-. constructor.
  - destruct (embed_query P seg) as [vec|]; [|discriminate].
    destruct (embed_chunks P name project tahun segs) as [rows'|];
      [|discriminate].
    injection Hrun as <-. constructor.
    + apply chunk_row_carries.
    + apply IH. reflexivity.
Qed.

Lemma chunks_of_carries doc name project tahun :
  Forall (carries project tahun) (chunks_of P doc name project tahun).
Proof.
  unfold chunks_of, _chunk_document.
  destruct (split_document P doc) as [segs|]; simpl; [|constructor].
  destruct (embed_chunks P name project tahun segs) as [rows|] eqn:Hrun;
    simpl; [|constructor].
  exact (embed_chunks_carries _ _ _ _ _ Hrun).
Qed.

(** Chunking never touches the table, and its rows are [chunks_of]. *)
Lemma chunk_document_run doc name project tahun tbl :
  _chunk_document P doc name project tahun tbl =
    (fst (_chunk_document P doc name project tahun []), tbl).
Proof.
  unfold _chunk_document.
  destruct (split_document P doc); reflexivity.
Qed.

Lemma product_chunks_carry project_name tahun pdfs :
  Forall (carries project_name tahun)
    (flat_map (product_chunks P W project_name tahun) pdfs).
Proof.
  apply List.Forall_forall. intros r Hr.
  apply in_flat_map in Hr. destruct Hr as [pdf [_ Hr]].
  unfold product_chunks in Hr.
  destruct (convert W (pdf_path pdf)) as [doc|]; [|destruct Hr].
  pose proof (chunks_of_carries doc (pdf_name pdf) project_name tahun) as HF.
  rewrite List.Forall_forall in HF. exact (HF r Hr).
Qed.

Lemma kak_tor_chunks_carry md_dir project tahun pdfs :
  Forall (carries (str_or project "kak_tor") (str_or tahun "2025"))
    (flat_map (kak_tor_chunks P W md_dir project tahun) pdfs).
Proof.
  apply List.Forall_forall. intros r Hr.
  apply in_flat_map in Hr. destruct Hr as [pdf [_ Hr]].
  unfold kak_tor_chunks in Hr.
  destruct (convert W (pdf_path pdf)) as [doc|]; [|destruct Hr].
  destruct (export_to_markdown W doc) as [md|]; [|destruct Hr].
  destruct (write_text W _ md); [|destruct Hr].
  pose proof (chunks_of_carries doc (pdf_name pdf)
                (str_or project "kak_tor") (str_or tahun "2025")) as HF.
  rewrite List.Forall_forall in HF. exact (HF r Hr).
Qed.

(** The loop of [add_product_knowledge] collects the chunks of the PDFs
    that convert and leaves the table alone. *)
Lemma product_loop project_name tahun pdfs : forall acc tbl,
  for_each pdfs
    (fun pdf entries =>
       try_except
         (bind (or_raise ConvertError (convert W (pdf_path pdf)))
            (fun result =>
               bind (_chunk_document P result (pdf_name pdf) project_name tahun)
                 (fun chunks => ret (entries ++ chunks))))
         (fun _ => ret entries))
    acc tbl =
  (Ok (acc ++ flat_map (product_chunks P W project_name tahun) pdfs), tbl).
Proof.
  induction pdfs as [|pdf pdfs IH]; intros acc tbl.
  - simpl. rewrite app_nil_r. reflexivity.
  - rewrite for_each_cons. simpl flat_map. unfold product_chunks at 1.
    unfold try_except, bind at 1, or_raise.
    destruct (convert W (pdf_path pdf)) as [doc|]; simpl.
    + unfold bind at 1. rewrite chunk_document_run. unfold chunks_of.
      destruct (fst (_chunk_document P doc (pdf_name pdf) project_name tahun []))
        as [rows|e]; simpl; rewrite IH.
      * rewrite app_assoc. reflexivity.
      * reflexivity.
    + rewrite IH. reflexivity.
Qed.

(** The loop of [add_kak_tor_knowledge], likewise. *)
Lemma kak_tor_loop md_dir project tahun pdfs : forall acc tbl,
  for_each pdfs
    (fun pdf entries =>
       try_except
         (bind (or_raise ConvertError (convert W (pdf_path pdf)))
            (fun result =>
               bind (or_raise ConvertError (export_to_markdown W result))
                 (fun md_content =>
                    bind (if write_text W
                               (md_dir +:+ "/" +:+ pdf_stem pdf +:+ ".md")
                               md_content
                          then ret tt else raise WriteError)
                      (fun _ =>
                         bind (_chunk_document P result (pdf_name pdf)
                                 (str_or project "kak_tor")
                                 (str_or tahun "2025"))
                           (fun chunks => ret (entries ++ chunks))))))
         (fun _ => ret entries))
    acc tbl =
  (Ok (acc ++ flat_map (kak_tor_chunks P W md_dir project tahun) pdfs), tbl).
Proof.
  induction pdfs as [|pdf pdfs IH]; intros acc tbl.
  - simpl. rewrite app_nil_r. reflexivity.
  - rewrite for_each_cons. simpl flat_map. unfold kak_tor_chunks at 1.
    unfold try_except, bind at 1, or_raise.
    destruct (convert W (pdf_path pdf)) as [doc|]; simpl;
      [|rewrite IH; reflexivity].
    unfold bind at 1.
    destruct (export_to_markdown W doc) as [md|]; simpl;
      [|rewrite IH; reflexivity].
    unfold bind at 1.
    destruct (write_text W _ md); simpl; [|rewrite IH; reflexivity].
    unfold bind at 1. rewrite chunk_document_run. unfold chunks_of.
    destruct (fst (_chunk_document P doc (pdf_name pdf) _ _ []))
      as [rows|e]; simpl; rewrite IH.
    + rewrite app_assoc. reflexivity.
    + reflexivity.
Qed.

(** Both ingestion tools return normally with the collected chunks
    appended to the table. *)
Lemma add_product_knowledge_run base_dir project_name tahun tbl :
  add_product_knowledge P W base_dir project_name tahun tbl =
    (Ok tt,
     tbl ++ flat_map (product_chunks P W project_name tahun)
              (glob_pdf W (default (knowledge_base_path W) base_dir))).
Proof.
  unfold add_product_knowledge.
  set (pdfs := glob_pdf W _).
  destruct (bool_decide (pdfs = [])) eqn:Hp.
  - apply bool_decide_eq_true in Hp. rewrite Hp. simpl.
    rewrite app_nil_r. reflexivity.
  - unfold bind at 1. rewrite product_loop. simpl.
    destruct (bool_decide (flat_map _ pdfs = [])) eqn:He.
    + apply bool_decide_eq_true in He. rewrite He, app_nil_r. reflexivity.
    + reflexivity.
Qed.

Lemma add_kak_tor_knowledge_run base_dir md_dir project tahun tbl :
  add_kak_tor_knowledge P W base_dir md_dir project tahun tbl =
    (Ok tt,
     tbl ++ flat_map
              (kak_tor_chunks P W (default (kak_tor_md_base_path W) md_dir)
                 project tahun)
              (glob_pdf W (default (kak_tor_base_path W) base_dir))).
Proof.
  unfold add_kak_tor_knowledge.
  set (pdfs := glob_pdf W _).
  destruct (bool_decide (pdfs = [])) eqn:Hp.
  - apply bool_decide_eq_true in Hp. rewrite Hp. simpl.
    rewrite app_nil_r. reflexivity.
  - unfold bind at 1. rewrite kak_tor_loop. simpl.
    destruct (bool_decide (flat_map _ pdfs = [])) eqn:He.
    + apply bool_decide_eq_true in He. rewrite He, app_nil_r. reflexivity.
    + reflexivity.
Qed.

Lemma str_or_supplied (s dflt : string) : s <> "" -> str_or (Some s) dflt = s.
Proof. destruct s; [congruence | reflexivity]. Qed.

Lemma product_chunks_none project_name tahun pdfs :
  Forall (fun pdf => convert W (pdf_path pdf) = None) pdfs ->
  flat_map (product_chunks P W project_name tahun) pdfs = [].
Proof.
  induction 1 as [|pdf pdfs Hpdf _ IH]; simpl; [reflexivity|].
  unfold product_chunks at 1. rewrite Hpdf, IH. reflexivity.
Qed.

Lemma kak_tor_chunks_none md_dir project tahun pdfs :
  Forall (fun pdf => convert W (pdf_path pdf) = None) pdfs ->
  flat_map (kak_tor_chunks P W md_dir project tahun) pdfs = [].
Proof.
  induction 1 as [|pdf pdfs Hpdf _ IH]; simpl; [reflexivity|].
  unfold kak_tor_chunks at 1. rewrite Hpdf, IH. reflexivity.
Qed.

(** C4, amended: a run of [add_product_knowledge] or
    [add_kak_tor_knowledge] whose converted PDFs produce n chunks adds
    exactly n rows to the vector table.  Every row added by
    [add_product_knowledge] carries the supplied project name and year;
    every row added by [add_kak_tor_knowledge] carries the supplied
    project and year where these are non-empty strings, and ["kak_tor"]
    or ["2025"] where the argument is missing or the empty string. *)
Theorem ingestion_adds_chunks base_dir kak_dir md_dir project_name tahun
    project kak_tahun tbl :
  ingested
    (length (flat_map (product_chunks P W project_name tahun)
               (glob_pdf W (default (knowledge_base_path W) base_dir))))
    project_name tahun tbl
    (snd (add_product_knowledge P W base_dir project_name tahun tbl))
  /\ ingested
       (length (flat_map
                  (kak_tor_chunks P W (default (kak_tor_md_base_path W) md_dir)
                     project kak_tahun)
                  (glob_pdf W (default (kak_tor_base_path W) kak_dir))))
       (str_or project "kak_tor") (str_or kak_tahun "2025") tbl
       (snd (add_kak_tor_knowledge P W kak_dir md_dir project kak_tahun tbl))
  /\ (forall s dflt, s <> "" -> str_or (Some s) dflt = s)
  /\ (forall dflt, str_or (Some "") dflt = dflt /\ str_or None dflt = dflt).
Proof.
  split; [|split; [|split]].
  - rewrite add_product_knowledge_run. eexists. simpl.
    split; [reflexivity|]. split; [reflexivity|].
    apply product_chunks_carry.
  - rewrite add_kak_tor_knowledge_run. eexists. simpl.
    split; [reflexivity|]. split; [reflexivity|].
    apply kak_tor_chunks_carry.
  - apply str_or_supplied.
  - intros dflt. split; reflexivity.
Qed.

(** C5: when the directory holds no PDF, or every PDF in it fails to
    convert, [add_product_knowledge] and [add_kak_tor_knowledge] return
    without adding any row: the vector table is unchanged. *)
Theorem ingestion_without_chunks base_dir kak_dir md_dir project_name tahun
    project kak_tahun tbl :
  Forall (fun pdf => convert W (pdf_path pdf) = None)
    (glob_pdf W (default (knowledge_base_path W) base_dir)) ->
  Forall (fun pdf => convert W (pdf_path pdf) = None)
    (glob_pdf W (default (kak_tor_base_path W) kak_dir)) ->
  add_product_knowledge P W base_dir project_name tahun tbl = (Ok tt, tbl)
  /\ add_kak_tor_knowledge P W kak_dir md_dir project kak_tahun tbl
     = (Ok tt, tbl).
Proof.
  intros Hprod Hkak. split.
  - rewrite add_product_knowledge_run, product_chunks_none by exact Hprod.
    rewrite app_nil_r. reflexivity.
  - rewrite add_kak_tor_knowledge_run, kak_tor_chunks_none by exact Hkak.
    rewrite app_nil_r. reflexivity.
Qed.

End Properties.

(** * The properties on the concrete instance *)

Lemma update_chunk_metadata_frame_witness :
  delete_raises (demo_engine false)
    (filter_expr [("project", VStr "Alpha")]) demo_table = false
  /\ rewrites_only_metadata (demo_engine false)
       (filter_expr [("project", VStr "Alpha")])
       {["tahun" := VStr "2025"]} demo_table
       (snd (update_chunk_metadata 0%Z (demo_engine false) demo_pipeline
               [("project", VStr "Alpha")] {["tahun" := VStr "2025"]}
               demo_table)).
Proof.
  split; [reflexivity|].
  apply update_chunk_metadata_frame. reflexivity.
Defined.

(** With a delete that raises, the rows selected by the filter stay in the
    table next to their rewritten copies: the table is not the unselected
    rows plus one rewritten row per selected row. *)
Lemma delete_failure_keeps_old_rows :
  ~ rewrites_only_metadata (demo_engine true)
      (filter_expr [("project", VStr "Alpha")])
      {["tahun" := VStr "2025"]} demo_table
      (snd (update_chunk_metadata 0%Z (demo_engine true) demo_pipeline
              [("project", VStr "Alpha")] {["tahun" := VStr "2025"]}
              demo_table)).
Proof.
  intros [rewritten [HF HP]].
  apply Forall2_length in HF. apply Permutation_length in HP.
  rewrite length_app, <- HF in HP.
  vm_compute in HP. discriminate HP.
Qed.

Lemma update_chunk_metadata_delete_failure_witness :
  List.filter (eval_where (demo_engine true)
                 (filter_expr [("project", VStr "Alpha")])) demo_table <> []
  /\ fst (update_chunk_metadata 0%Z (demo_engine true) demo_pipeline
            [("project", VStr "Alpha")] {["tahun" := VStr "2025"]}
            demo_table) = Ok 2
  /\ length (snd (update_chunk_metadata 0%Z (demo_engine true) demo_pipeline
                    [("project", VStr "Alpha")] {["tahun" := VStr "2025"]}
                    demo_table)) = 5.
Proof.
  assert (Hne : List.filter (eval_where (demo_engine true)
                   (filter_expr [("project", VStr "Alpha")])) demo_table <> []).
  { vm_compute. discriminate. }
  split; [exact Hne|].
  destruct (update_chunk_metadata_delete_failure 0%Z (demo_engine true)
              demo_pipeline [("project", VStr "Alpha")]
              {["tahun" := VStr "2025"]} demo_table Hne eq_refl)
    as [df [HP [Hrun _]]].
  rewrite Hrun. cbn [fst snd].
  rewrite length_app, length_map, (Permutation_length HP).
  split; reflexivity.
Defined.

Lemma rebuild_all_embeddings_reembeds_witness :
  Forall (embeddable demo_pipeline) demo_table
  /\ exists tbl',
       rebuild_all_embeddings demo_pipeline 100 demo_table = (Ok tt, tbl')
       /\ Forall2 (reembedding demo_pipeline) demo_table tbl'
       /\ length tbl' = length demo_table.
Proof.
  assert (Hall : Forall (embeddable demo_pipeline) demo_table).
  { repeat constructor; eexists; split; reflexivity. }
  split; [exact Hall|].
  exact (rebuild_all_embeddings_reembeds demo_pipeline 100 demo_table Hall).
Defined.

Lemma rebuild_all_embeddings_atomic_witness :
  Exists (embedding_fails demo_pipeline)
    (demo_table ++ [demo_row "" "Alpha" "2024"])
  /\ exists e,
       rebuild_all_embeddings demo_pipeline 100
         (demo_table ++ [demo_row "" "Alpha" "2024"])
       = (Raised e, demo_table ++ [demo_row "" "Alpha" "2024"]).
Proof.
  assert (Hex : Exists (embedding_fails demo_pipeline)
                  (demo_table ++ [demo_row "" "Alpha" "2024"])).
  { apply Exists_app. right. constructor. left. reflexivity. }
  split; [exact Hex|].
  exact (rebuild_all_embeddings_atomic demo_pipeline 100 _ Hex).
Defined.

Lemma rebuild_all_embeddings_batch_size_witness :
  rebuild_all_embeddings demo_pipeline 100 demo_table =
  rebuild_all_embeddings demo_pipeline 1 demo_table.
Proof.
  apply rebuild_all_embeddings_batch_size; lia.
Defined.

Lemma ingestion_without_chunks_witness :
  (add_product_knowledge demo_pipeline demo_world (Some "empty") "P" "2024"
     demo_table = (Ok tt, demo_table)
   /\ add_kak_tor_knowledge demo_pipeline demo_world (Some "empty") None
        (Some "K") None demo_table = (Ok tt, demo_table))
  /\ (add_product_knowledge demo_pipeline demo_world (Some "broken") "P" "2024"
        demo_table = (Ok tt, demo_table)
      /\ add_kak_tor_knowledge demo_pipeline demo_world (Some "broken") None
           (Some "K") None demo_table = (Ok tt, demo_table)).
Proof.
  split.
  - apply ingestion_without_chunks; constructor.
  - apply ingestion_without_chunks; repeat constructor.
Defined.

(** [add_kak_tor_knowledge] called with the empty string as project stores
    ["kak_tor"], not the supplied value. *)
Lemma kak_tor_empty_project_not_carried :
  ~ exists n,
      ingested n "" "2024" demo_table
        (snd (add_kak_tor_knowledge demo_pipeline demo_world None None
                (Some "") (Some "2024") demo_table)).
Proof.
  intros [n [added [Heq [_ HF]]]].
  rewrite add_kak_tor_knowledge_run in Heq. cbn [snd] in Heq.
  apply app_inv_head in Heq. subst added.
  vm_compute in HF.
  inversion HF as [|r rows [Hproject _] _]. discriminate Hproject.
Qed.

(** * Further properties of the tools *)

Section MoreProperties.

Context {scalar Document : Type}.
Variable zero : scalar.
Variable E : @TableEngine scalar.
Variable P : @Pipeline scalar Document.
Variable W : @World Document.
Variable R : Runtime.

Implicit Types (tbl : list (@Row scalar)) (r : @Row scalar).
Implicit Types (mf : Filter) (nm : Meta).

(** ** Metadata values and statistics *)




Lemma count_of_pos v col : count_of v col <> 0 <-> v ∈ col.
Proof.
  unfold count_of. induction col as [|a col IH]; simpl.
  - split; [congruence | intros H; apply elem_of_nil in H; destruct H].
  - rewrite elem_of_cons. destruct (decide (a = v)) as [->|Hne].
    + rewrite bool_decide_eq_true_2 by reflexivity. simpl.
      split; [left; reflexivity | discriminate].
    + rewrite bool_decide_eq_false_2 by assumption. rewrite IH.
      split; [tauto | intros [->|H]; [congruence | exact H]].
Qed.

(** X3: The statistics agree with [list_metadata_values]: [projects] is the
    list it returns for ["project"], and the keys of [tahun_distribution]
    are exactly the values it returns for ["tahun"]. *)
Theorem stats_agree_with_metadata_values tbl :
  exists stats years,
    fst (get_vectorstore_stats tbl) = Ok stats
    /\ fst (list_metadata_values "project" tbl) = Ok (projects stats)
    /\ fst (list_metadata_values "tahun" tbl) = Ok years
    /\ forall v, v ∈ years <-> is_Some (tahun_distribution stats !! v).
Proof.
  eexists. eexists. split; [reflexivity|]. split; [reflexivity|].
  split; [reflexivity|]. simpl. intros v.
  unfold unique. rewrite unique_from_elem, value_counts_lookup.
  rewrite <- count_of_pos.
  destruct (Nat.eqb (count_of v _) 0) eqn:Hz.
  - apply Nat.eqb_eq in Hz. rewrite Hz. split.
    + intros [Hc _]. congruence.
    + intros [n Hn]. discriminate.
  - apply Nat.eqb_neq in Hz. split.
    + intros _. eexists. reflexivity.
    + intros _. split; [exact Hz | apply not_elem_of_nil].
Qed.


(** ** Reset *)

(** X5: After [reset_knowledge_base], whatever the table held, the statistics
    show no row, no project and no year, every metadata rewrite returns 0,
    and an ingestion leaves exactly the chunks of its directory. *)
Theorem reset_knowledge_base_fresh tbl mf nm field base_dir project_name tahun :
  let fresh := snd (reset_knowledge_base tbl) in
  fst (reset_knowledge_base tbl) = Ok tt
  /\ get_vectorstore_stats fresh =
       (Ok {| total_rows := 0; projects := []; tahun_distribution := ∅ |},
        fresh)
  /\ list_metadata_values field fresh = (Ok [], fresh)
  /\ update_chunk_metadata zero E P mf nm fresh = (Ok 0, fresh)
  /\ snd (add_product_knowledge P W base_dir project_name tahun fresh) =
       flat_map (product_chunks P W project_name tahun)
         (glob_pdf W (default (knowledge_base_path W) base_dir)).
Proof.
  simpl. split; [reflexivity|]. split; [reflexivity|].
  split; [reflexivity|]. split.
  - rewrite update_chunk_metadata_run. simpl.
    assert (Hdf : rank E (repeat zero (vector_dim P)) [] = []).
    { apply Permutation_nil. symmetry. apply rank_perm. }
    rewrite Hdf. reflexivity.
  - rewrite add_product_knowledge_run. reflexivity.
Qed.

(** ** Metadata rewrite *)

(** X6: A metadata rewrite whose delete succeeds keeps the number of rows;
    when the delete raises, the table grows by the number of selected
    rows. *)
Theorem update_chunk_metadata_row_count mf nm tbl :
  let matched := List.filter (eval_where E (filter_expr mf)) tbl in
  length (snd (update_chunk_metadata zero E P mf nm tbl)) =
    if delete_raises E (filter_expr mf) tbl
    then length tbl + length matched
    else length tbl.
Proof.
  intros matched. unfold matched. clear matched.
  rewrite update_chunk_metadata_run. simpl.
  pose proof (hits_length zero E P mf tbl) as Hlen.
  pose proof (List.filter_length (eval_where E (filter_expr mf)) tbl) as Hsplit.
  destruct (bool_decide _) eqn:Hdf.
  - apply bool_decide_eq_true in Hdf. rewrite Hdf in Hlen. simpl in Hlen.
    rewrite <- Hlen in *. destruct (delete_raises _ _ _); lia.
  - rewrite length_app, length_map, Hlen.
    destruct (delete_raises _ _ _); lia.
Qed.

Lemma append_assoc (s1 s2 s3 : string) :
  (s1 +:+ s2) +:+ s3 = s1 +:+ s2 +:+ s3.
Proof.
  induction s1 as [|c s1 IH]; [reflexivity|].
  change (String c ((s1 +:+ s2) +:+ s3) = String c (s1 +:+ s2 +:+ s3)).
  rewrite IH. reflexivity.
Qed.

(** String values are put between quotes without escaping: a filter with
    one string value that contains a quote can build the very expression of
    a two-item filter. *)
Lemma filter_expr_unescaped (key key2 a b : string) :
  filter_expr [(key, VStr (a +:+ "' AND metadata." +:+ key2 +:+ " = '" +:+ b))]
  = filter_expr [(key, VStr a); (key2, VStr b)].
Proof.
  unfold filter_expr, clause, format_value, map, String.concat, fst, snd.
  rewrite !append_assoc. reflexivity.
Qed.

(** X7: The rewrite sees a filter only through its expression, and quotes in
    string values are not escaped: on every table and engine, rewriting
    under a one-item filter whose value embeds [' AND metadata.key2 = ']
    does exactly what rewriting under the two-item filter does. *)
Theorem update_chunk_metadata_quote_injection (key key2 a b : string) nm tbl :
  update_chunk_metadata zero E P
    [(key, VStr (a +:+ "' AND metadata." +:+ key2 +:+ " = '" +:+ b))] nm tbl
  = update_chunk_metadata zero E P [(key, VStr a); (key2, VStr b)] nm tbl.
Proof.
  rewrite !update_chunk_metadata_run. cbv zeta.
  rewrite filter_expr_unescaped. reflexivity.
Qed.

Lemma updated_entry_id nm r : nm ⊆ metadata r -> updated_entry nm r = r.
Proof.
  intros Hsub. destruct r as [txt vec meta]. unfold updated_entry, dict_merge.
  simpl in *. f_equal. apply map_subseteq_union. exact Hsub.
Qed.

Lemma filter_partition_perm {A} (f : A -> bool) (l : list A) :
  Permutation (List.filter (fun x => negb (f x)) l ++ List.filter f l) l.
Proof.
  induction l as [|x l IH]; simpl; [constructor|].
  destruct (f x); simpl.
  - symmetry. apply Permutation_cons_app. symmetry. exact IH.
  - constructor. exact IH.
Qed.

(** X8: A metadata rewrite whose new metadata every selected row already
    holds, and whose delete succeeds, changes nothing but the order of the
    rows. *)
Theorem update_chunk_metadata_noop mf nm tbl :
  delete_raises E (filter_expr mf) tbl = false ->
  (forall r, In r tbl -> eval_where E (filter_expr mf) r = true ->
     nm ⊆ metadata r) ->
  Permutation (snd (update_chunk_metadata zero E P mf nm tbl)) tbl.
Proof.
  intros Hdel Hheld. rewrite update_chunk_metadata_run. simpl. rewrite Hdel.
  set (matched := List.filter (eval_where E (filter_expr mf)) tbl).
  pose proof (rank_perm E (repeat zero (vector_dim P)) matched) as HP.
  destruct (bool_decide _); [reflexivity|].
  assert (Hid : map (updated_entry nm)
                  (rank E (repeat zero (vector_dim P)) matched)
                = rank E (repeat zero (vector_dim P)) matched).
  { rewrite <- (map_id (rank E _ matched)) at 2.
    apply map_ext_in. intros r Hr. apply updated_entry_id.
    apply (Permutation_in r HP) in Hr. apply filter_In in Hr.
    destruct Hr as [Hin Hsel]. exact (Hheld r Hin Hsel). }
  rewrite Hid.
  transitivity
    (List.filter (fun r => negb (eval_where E (filter_expr mf) r)) tbl
       ++ matched).
  - apply Permutation_app_head. exact HP.
  - apply filter_partition_perm.
Qed.

(** ** Re-embedding *)

Lemma rebuild_run batch_size tbl :
  Forall (embeddable P) tbl ->
  exists new,
    rebuild_all_embeddings P batch_size tbl = (Ok tt, new)
    /\ Forall2 (reembedding P) tbl new.
Proof.
  intros Hall.
  destruct (rebuild_loop_ok P tbl [] tbl Hall) as [new [Hrun Hnew]].
  exists new. split; [|exact Hnew].
  unfold rebuild_all_embeddings, table_to_pandas.
  unfold bind at 1. unfold bind at 1. rewrite Hrun. reflexivity.
Qed.

Lemma reembedded_embeddable (old new : list (@Row scalar)) :
  Forall (embeddable P) old -> Forall2 (reembedding P) old new ->
  Forall (embeddable P) new
  /\ Forall (fun r => embed_query P (text r) = Some (vector r)) new.
Proof.
  intros Hall HF. induction HF as [|r r' old new Hr HF IH].
  - split; constructor.
  - inversion Hall as [|? ? [vec [Hemb Hdim]] Hrest]; subst.
    destruct (IH Hrest) as [IH1 IH2].
    destruct Hr as [Htext [_ Hvec]].
    assert (Hself : embed_query P (text r') = Some (vector r'))
      by (rewrite Htext; exact Hvec).
    split; constructor; try assumption.
    exists (vector r'). split; [exact Hself|].
    rewrite Hemb in Hvec. injection Hvec as <-. exact Hdim.
Qed.

Lemma reembedding_fixed (l l' : list (@Row scalar)) :
  Forall (fun r => embed_query P (text r) = Some (vector r)) l ->
  Forall2 (reembedding P) l l' -> l' = l.
Proof.
  intros Hself HF. induction HF as [|r r' l l' Hr HF IH]; [reflexivity|].
  inversion Hself as [|? ? Hr0 Hrest]; subst.
  rewrite (IH Hrest). f_equal.
  destruct Hr as [Htext [Hmeta Hvec]].
  rewrite Hr0 in Hvec. injection Hvec as Hvec.
  destruct r, r'. simpl in *. congruence.
Qed.

(** X9: Re-embedding is idempotent: once [rebuild_all_embeddings] has
    succeeded, running it again, with any batch size, succeeds and leaves
    the table exactly as it is. *)
Theorem rebuild_all_embeddings_idempotent (b1 b2 : Z) tbl :
  Forall (embeddable P) tbl ->
  exists tbl',
    rebuild_all_embeddings P b1 tbl = (Ok tt, tbl')
    /\ rebuild_all_embeddings P b2 tbl' = (Ok tt, tbl').
Proof.
  intros Hall.
  destruct (rebuild_run b1 tbl Hall) as [new [Hrun Hnew]].
  destruct (reembedded_embeddable tbl new Hall Hnew) as [Hall' Hself].
  destruct (rebuild_run b2 new Hall') as [new2 [Hrun2 Hnew2]].
  exists new. split; [exact Hrun|].
  rewrite Hrun2. f_equal. exact (reembedding_fixed new new2 Hself Hnew2).
Qed.

Lemma reembedding_metadata (l l' : list (@Row scalar)) :
  Forall2 (reembedding P) l l' -> map metadata l' = map metadata l.
Proof.
  induction 1 as [|r r' l l' [_ [Hmeta _]] _ IH]; simpl; [reflexivity|].
  rewrite Hmeta, IH. reflexivity.
Qed.

(** X10: A successful [rebuild_all_embeddings] does not change what the
    statistics and [list_metadata_values] report. *)
Theorem rebuild_all_embeddings_keeps_stats batch_size tbl :
  Forall (embeddable P) tbl ->
  exists tbl',
    rebuild_all_embeddings P batch_size tbl = (Ok tt, tbl')
    /\ fst (get_vectorstore_stats tbl') = fst (get_vectorstore_stats tbl)
    /\ forall field,
         fst (list_metadata_values field tbl')
         = fst (list_metadata_values field tbl).
Proof.
  intros Hall.
  destruct (rebuild_run batch_size tbl Hall) as [new [Hrun Hnew]].
  exists new. split; [exact Hrun|].
  pose proof (reembedding_metadata tbl new Hnew) as Hmeta.
  assert (Hcol : forall key,
            map (fun r : @Row scalar => dict_get key (metadata r)) new
            = map (fun r : @Row scalar => dict_get key (metadata r)) tbl).
  { intros key. rewrite <- !(map_map metadata (dict_get key)), Hmeta.
    reflexivity. }
  split.
  - simpl. rewrite !Hcol.
    rewrite <- (length_map metadata new), Hmeta, length_map. reflexivity.
  - intros field. simpl. rewrite Hcol. reflexivity.
Qed.

(** ** Ingestion *)

(** X11: Ingestion does not deduplicate: running [add_product_knowledge] or
    [add_kak_tor_knowledge] a second time on the same directory stores
    every chunk a second time. *)
Theorem ingestion_twice_duplicates base_dir kak_dir md_dir project_name tahun
    project kak_tahun tbl :
  let chunks :=
    flat_map (product_chunks P W project_name tahun)
      (glob_pdf W (default (knowledge_base_path W) base_dir)) in
  let kak_chunks :=
    flat_map
      (kak_tor_chunks P W (default (kak_tor_md_base_path W) md_dir)
         project kak_tahun)
      (glob_pdf W (default (kak_tor_base_path W) kak_dir)) in
  snd (add_product_knowledge P W base_dir project_name tahun
         (snd (add_product_knowledge P W base_dir project_name tahun tbl)))
    = tbl ++ chunks ++ chunks
  /\ snd (add_kak_tor_knowledge P W kak_dir md_dir project kak_tahun
            (snd (add_kak_tor_knowledge P W kak_dir md_dir project kak_tahun
                    tbl)))
     = tbl ++ kak_chunks ++ kak_chunks.
Proof.
  intros chunks kak_chunks. split.
  - rewrite !add_product_knowledge_run. simpl. rewrite <- app_assoc.
    reflexivity.
  - rewrite !add_kak_tor_knowledge_run. simpl. rewrite <- app_assoc.
    reflexivity.
Qed.

(** X12: [add_kak_tor_knowledge] indexes a PDF only after its Markdown export
    is written: when no file can be written nothing is added, however well
    the PDFs convert. *)
Theorem add_kak_tor_knowledge_needs_export kak_dir md_dir project kak_tahun tbl :
  (forall path content, write_text W path content = false) ->
  add_kak_tor_knowledge P W kak_dir md_dir project kak_tahun tbl = (Ok tt, tbl).
Proof.
  intros Hwrite. rewrite add_kak_tor_knowledge_run.
  assert (Hnone : forall pdfs,
            flat_map
              (kak_tor_chunks P W (default (kak_tor_md_base_path W) md_dir)
                 project kak_tahun) pdfs = []).
  { induction pdfs as [|pdf pdfs IH]; simpl; [reflexivity|].
    rewrite IH, app_nil_r. unfold kak_tor_chunks.
    destruct (convert W (pdf_path pdf)) as [doc|]; [|reflexivity].
    destruct (export_to_markdown W doc) as [md|]; [|reflexivity].
    rewrite Hwrite. reflexivity. }
  rewrite Hnone, app_nil_r. reflexivity.
Qed.

(** ** Indexing a summary *)

(** What [add_kak_tor_summaries_knowledge] does once a file is chosen:
    the chunks of the file are appended, or nothing when converting or
    chunking raises. *)
Lemma summaries_found c name project tahun file_path tbl :
  List.find (path_exists R)
    (candidates R (summaries_md_base_path R) (str_strip R (String c name)))
  = Some file_path ->
  add_kak_tor_summaries_knowledge P W R (Some (String c name)) project tahun tbl
  = (Ok tt,
     tbl ++ match convert W file_path with
            | Some doc => chunks_of P doc (path_name R file_path) project tahun
            | None => []
            end).
Proof.
  intros Hfind. unfold add_kak_tor_summaries_knowledge. rewrite Hfind.
  unfold try_except, bind at 1, or_raise.
  destruct (convert W file_path) as [doc|]; simpl;
    [|rewrite app_nil_r; reflexivity].
  unfold bind. rewrite chunk_document_run. unfold chunks_of.
  destruct (fst (_chunk_document P doc (path_name R file_path) project tahun []))
    as [rows|e]; simpl; [|rewrite app_nil_r; reflexivity].
  destruct (bool_decide (rows = [])) eqn:Hrows; simpl; [|reflexivity].
  apply bool_decide_eq_true in Hrows. rewrite Hrows, app_nil_r. reflexivity.
Qed.

(** X13: [add_kak_tor_summaries_knowledge] never raises and only appends: for
    every name, project and year it returns normally, keeps the rows that
    were there, and every row it adds carries the project and year exactly
    as given (no default is substituted for an empty string). *)
Theorem add_kak_tor_summaries_knowledge_appends markdown_name project tahun tbl :
  exists added,
    add_kak_tor_summaries_knowledge P W R markdown_name project tahun tbl
    = (Ok tt, tbl ++ added)
    /\ Forall (carries project tahun) added.
Proof.
  destruct markdown_name as [[|c name]|];
    try (exists []; rewrite app_nil_r; split; [reflexivity | constructor]).
  destruct (List.find (path_exists R)
              (candidates R (summaries_md_base_path R)
                 (str_strip R (String c name)))) as [file_path|] eqn:Hfind.
  - eexists. split; [apply (summaries_found _ _ _ _ _ _ Hfind)|].
    destruct (convert W file_path) as [doc|]; [|constructor].
    apply chunks_of_carries.
  - exists []. rewrite app_nil_r. split; [|constructor].
    unfold add_kak_tor_summaries_knowledge. rewrite Hfind. reflexivity.
Qed.

(** X14: Without a usable file nothing is indexed: when the name is missing or
    empty, or none of the candidate files exists, the table is left as it
    is. *)
Theorem add_kak_tor_summaries_knowledge_no_file markdown_name project tahun tbl :
  (forall name,
     markdown_name = Some name -> name <> "" ->
     Forall (fun p => path_exists R p = false)
       (candidates R (summaries_md_base_path R) (str_strip R name))) ->
  add_kak_tor_summaries_knowledge P W R markdown_name project tahun tbl
  = (Ok tt, tbl).
Proof.
  intros Hnone. destruct markdown_name as [[|c name]|]; try reflexivity.
  unfold add_kak_tor_summaries_knowledge.
  assert (Hall := Hnone (String c name) eq_refl ltac:(discriminate)).
  destruct (List.find _ _) as [file_path|] eqn:Hfind; [|reflexivity].
  apply find_some in Hfind. destruct Hfind as [Hin Hex].
  rewrite List.Forall_forall in Hall. rewrite (Hall _ Hin) in Hex.
  discriminate.
Qed.

(** X15: The exact file name has priority: when [<name>.md] exists in the
    summaries directory, that file is the one indexed, whatever other
    files match the name. *)
Theorem add_kak_tor_summaries_knowledge_exact name project tahun doc tbl :
  name <> "" ->
  let exact :=
    path_join R (summaries_md_base_path R) (str_strip R name +:+ ".md") in
  path_exists R exact = true ->
  convert W exact = Some doc ->
  add_kak_tor_summaries_knowledge P W R (Some name) project tahun tbl
  = (Ok tt, tbl ++ chunks_of P doc (path_name R exact) project tahun).
Proof.
  intros Hname exact Hex Hconv. destruct name as [|c name]; [congruence|].
  rewrite (summaries_found c name project tahun exact).
  - rewrite Hconv. reflexivity.
  - unfold candidates. simpl. fold exact. rewrite Hex. reflexivity.
Qed.

Lemma contains_empty (hay : string) : contains "" hay = true.
Proof. destruct hay; reflexivity. Qed.

(** X16: A name of blanks only matches every file: when the name strips to the
    empty string and no file [.md] exists, the first Markdown file of the
    summaries directory that exists is indexed. *)
Theorem add_kak_tor_summaries_knowledge_blank name project tahun first rest doc
    tbl :
  name <> "" ->
  str_strip R name = "" ->
  str_lower R "" = "" ->
  path_exists R (path_join R (summaries_md_base_path R) ".md") = false ->
  glob_md R (summaries_md_base_path R) = first :: rest ->
  path_exists R first = true ->
  convert W first = Some doc ->
  add_kak_tor_summaries_knowledge P W R (Some name) project tahun tbl
  = (Ok tt, tbl ++ chunks_of P doc (path_name R first) project tahun).
Proof.
  intros Hname Hstrip Hlower Hdot Hglob Hex Hconv.
  destruct name as [|c name]; [congruence|].
  rewrite (summaries_found c name project tahun first).
  - rewrite Hconv. reflexivity.
  - unfold candidates. rewrite Hstrip, Hlower, Hglob. simpl.
    change ("" +:+ ".md") with ".md". rewrite Hdot.
    rewrite contains_empty. simpl. rewrite Hex. reflexivity.
Qed.

(** ** Instruction context and tender payload *)



(** X18: An empty selection is no selection: with [selected_files] empty every
    Markdown file of the directory is read, as with [None], and the result
    is that of selecting all the files of the directory by name. *)
Theorem build_instruction_context_empty_selection template_name kak_md_dir
    name names :
  glob_md R (default (kak_tor_md_base_path W) kak_md_dir)
  = map (path_join R (default (kak_tor_md_base_path W) kak_md_dir))
      (name :: names) ->
  build_instruction_context W R template_name kak_md_dir (Some [])
  = build_instruction_context W R template_name kak_md_dir None
  /\ build_instruction_context W R template_name kak_md_dir (Some [])
     = build_instruction_context W R template_name kak_md_dir
         (Some (name :: names)).
Proof.
  intros Hglob. split; [reflexivity|].
  unfold build_instruction_context. rewrite Hglob. reflexivity.
Qed.


(** X20: The template is checked first: when it is not a file the call raises
    the template error whatever the KAK/TOR name, also when the name is
    missing; with the template in place a missing name raises the error
    that lists the names of all exported Markdown files. *)
Theorem build_summary_tender_payload_errors prompt_instruction_name kak_tor_name
    instruksi :
  let tmpl_path :=
    path_join R (templates_base_path R) (prompt_instruction_name +:+ ".txt") in
  (is_file R tmpl_path = false ->
   build_summary_tender_payload W R prompt_instruction_name kak_tor_name
   = inl (TemplateNotFound tmpl_path))
  /\ (is_file R tmpl_path = true ->
      read_text R tmpl_path = Some instruksi ->
      build_summary_tender_payload W R prompt_instruction_name None
      = inl (NameRequired
               (map (path_name R) (glob_md R (kak_tor_md_base_path W)))))
  /\ (is_file R tmpl_path = true ->
      read_text R tmpl_path = Some instruksi ->
      forall name,
        is_file R (path_join R (kak_tor_md_base_path W) name) = false ->
        build_summary_tender_payload W R prompt_instruction_name (Some name)
        = inl (KakTorNotFound name
                 (map (path_name R) (glob_md R (kak_tor_md_base_path W))))).
Proof.
  intros tmpl_path. unfold build_summary_tender_payload. fold tmpl_path.
  split; [|split].
  - intros ->. reflexivity.
  - intros -> ->. reflexivity.
  - intros -> -> name ->. reflexivity.
Qed.

(** X21: The two builders agree: whenever [build_summary_tender_payload]
    succeeds for a file, [build_instruction_context] with that one file
    selected returns the same instruction and the same context. *)
Theorem payload_agrees_with_context prompt_instruction_name name payload :
  build_summary_tender_payload W R prompt_instruction_name (Some name)
  = inr payload ->
  build_instruction_context W R prompt_instruction_name None (Some [name])
  = inr (instruction payload, context payload).
Proof.
  unfold build_summary_tender_payload, build_instruction_context.
  destruct (is_file R _); simpl; [|discriminate].
  destruct (read_text R (path_join R (templates_base_path R) _))
    as [instr|]; [|discriminate].
  destruct (is_file R _); simpl; [|discriminate].
  destruct (read_text R (path_join R (kak_tor_md_base_path W) name))
    as [md_text|]; [|discriminate].
  intros H. injection H as <-. reflexivity.
Qed.

End MoreProperties.

(** * The further properties on the concrete instance *)

Lemma update_chunk_metadata_noop_witness :
  delete_raises (demo_engine false)
    (filter_expr [("project", VStr "Alpha")]) demo_table = false
  /\ Permutation
       (snd (update_chunk_metadata 0%Z (demo_engine false) demo_pipeline
               [("project", VStr "Alpha")] {["project" := VStr "Alpha"]}
               demo_table))
       demo_table.
Proof.
  split; [reflexivity|].
  apply update_chunk_metadata_noop; [reflexivity|].
  intros r Hin Hsel. simpl in Hin.
  destruct Hin as [<-|[<-|[<-|[]]]].
  - apply map_singleton_subseteq_l. reflexivity.
  - vm_compute in Hsel. discriminate Hsel.
  - apply map_singleton_subseteq_l. reflexivity.
Defined.

Lemma rebuild_all_embeddings_idempotent_witness :
  Forall (embeddable demo_pipeline) demo_table
  /\ exists tbl',
       rebuild_all_embeddings demo_pipeline 100 demo_table = (Ok tt, tbl')
       /\ rebuild_all_embeddings demo_pipeline 1 tbl' = (Ok tt, tbl').
Proof.
  assert (Hall : Forall (embeddable demo_pipeline) demo_table).
  { repeat constructor; eexists; split; reflexivity. }
  split; [exact Hall|].
  exact (rebuild_all_embeddings_idempotent demo_pipeline 100 1 demo_table Hall).
Defined.

Lemma rebuild_all_embeddings_keeps_stats_witness :
  Forall (embeddable demo_pipeline) demo_table
  /\ exists tbl',
       rebuild_all_embeddings demo_pipeline 100 demo_table = (Ok tt, tbl')
       /\ fst (get_vectorstore_stats tbl')
          = fst (get_vectorstore_stats demo_table)
       /\ forall field,
            fst (list_metadata_values field tbl')
            = fst (list_metadata_values field demo_table).
Proof.
  assert (Hall : Forall (embeddable demo_pipeline) demo_table).
  { repeat constructor; eexists; split; reflexivity. }
  split; [exact Hall|].
  exact (rebuild_all_embeddings_keeps_stats demo_pipeline 100 demo_table Hall).
Defined.

Lemma add_kak_tor_knowledge_needs_export_witness :
  convert demo_readonly_world "kak/c.pdf" = Some ["delta"]
  /\ add_kak_tor_knowledge demo_pipeline demo_readonly_world None None
       (Some "K") (Some "2024") demo_table = (Ok tt, demo_table).
Proof.
  split; [reflexivity|].
  apply add_kak_tor_knowledge_needs_export. intros path content. reflexivity.
Defined.

Lemma add_kak_tor_summaries_knowledge_no_file_witness :
  add_kak_tor_summaries_knowledge demo_pipeline demo_summaries_world
    demo_runtime (Some "missing") "S" "2024" demo_table = (Ok tt, demo_table).
Proof.
  apply add_kak_tor_summaries_knowledge_no_file.
  intros name Hname _. injection Hname as <-.
  vm_compute. repeat constructor.
Defined.

Lemma add_kak_tor_summaries_knowledge_exact_witness :
  add_kak_tor_summaries_knowledge demo_pipeline demo_summaries_world
    demo_runtime (Some "tender_b") "S" "2024" demo_table
  = (Ok tt,
     demo_table
       ++ chunks_of demo_pipeline ["terms"] "tender_b.md" "S" "2024").
Proof.
  apply (add_kak_tor_summaries_knowledge_exact demo_pipeline
           demo_summaries_world demo_runtime "tender_b" "S" "2024" ["terms"]);
    [discriminate | reflexivity | reflexivity].
Defined.

Lemma add_kak_tor_summaries_knowledge_blank_witness :
  add_kak_tor_summaries_knowledge demo_pipeline demo_summaries_world
    demo_runtime (Some "  ") "S" "2024" demo_table
  = (Ok tt,
     demo_table
       ++ chunks_of demo_pipeline ["scope"; "budget"] "tender_a.md" "S" "2024").
Proof.
  apply (add_kak_tor_summaries_knowledge_blank demo_pipeline
           demo_summaries_world demo_runtime "  " "S" "2024"
           "sum/tender_a.md" ["sum/tender_b.md"] ["scope"; "budget"]);
    [discriminate | reflexivity..].
Defined.

Lemma build_instruction_context_empty_selection_witness :
  build_instruction_context demo_summaries_world demo_runtime "summary" None
    (Some [])
  = build_instruction_context demo_summaries_world demo_runtime "summary" None
      None
  /\ build_instruction_context demo_summaries_world demo_runtime "summary" None
       (Some [])
     = build_instruction_context demo_summaries_world demo_runtime "summary"
         None (Some ["c.md"]).
Proof.
  apply build_instruction_context_empty_selection. reflexivity.
Defined.

Lemma payload_agrees_with_context_witness :
  build_instruction_context demo_summaries_world demo_runtime "summary" None
    (Some ["c.md"])
  = inr ("Summarise the tender.", context_section "c.md" "delta").
Proof.
  apply (payload_agrees_with_context demo_summaries_world demo_runtime
           "summary" "c.md"
           {| instruction := "Summarise the tender.";
              context := context_section "c.md" "delta" |}).
  reflexivity.
Defined.
